(** * BatterySimulatorController: a shallow embedding of the Flask handler
      [simulate] and of the worker [simulate_battery].

    Python values are embedded as [pyval]; exceptions as [exn]; the code that
    threads effects (engine calls, the outbound POST, the shared
    [result_holder] dictionary) runs in a small state-and-exception monad [M].
    PyBaMM and [requests] are opaque collaborators: they are the fields of a
    [world] record, over which every general statement quantifies. *)

Set Warnings "-inexact-float,-register-all".
From Stdlib Require Import ZArith String List Floats.
From stdpp Require Import base gmap strings list pretty.

Local Open Scope Z_scope.

(** ** Python values *)

(** The values a decoded JSON document is made of, which are also all the
    values the handler manipulates.  [PyInt] is unbounded, [PyFloat] is an
    IEEE 754 binary64. *)
Inductive pyval :=
| PyNone
| PyBool (b : bool)
| PyInt (n : Z)
| PyFloat (f : float)
| PyStr (s : string)
| PyList (l : list pyval)
| PyDict (d : gmap string pyval).

(** The name of a value's class, as [type(v).__name__] prints it. *)
Definition type_name (v : pyval) : string :=
  match v with
  | PyNone => "NoneType"
  | PyBool _ => "bool"
  | PyInt _ => "int"
  | PyFloat _ => "float"
  | PyStr _ => "str"
  | PyList _ => "list"
  | PyDict _ => "dict"
  end.

(** ** Exceptions *)

(** The classes of exception the code can meet.  [SolverError] is
    [pybamm.SolverError], the only class the worker tells apart; every class
    here derives from [Exception]. *)
Inductive exn_class :=
| SolverError
| TypeError
| AttributeError
| IndexError
| OverflowError
| ConnectionError
| BadRequest
| Exception.

Record exn := Exn { exn_cls : exn_class; exn_msg : string }.

(** [str(e)] *)
Definition str (e : exn) : string := exn_msg e.

Definition is_SolverError (e : exn) : bool :=
  match exn_cls e with SolverError => true | _ => false end.

(** The result of evaluating an expression: a value or a raised exception. *)
Inductive outcome (A : Type) :=
| Returned (a : A)
| Raised (e : exn).
Arguments Returned {A} a.
Arguments Raised {A} e.

Definition obind {A B} (c : outcome A) (k : A -> outcome B) : outcome B :=
  match c with
  | Returned a => k a
  | Raised e => Raised e
  end.

Notation "'let?' x := c 'in' k" := (obind c (fun x => k))
  (at level 10, x name, c at level 100, k at level 200, only parsing).

(** ** The operations of Python the code uses *)

(** [data.get(key, default)]: only a dict has the method. *)
Definition py_get (data : pyval) (key : string) (dflt : pyval) : outcome pyval :=
  match data with
  | PyDict d => Returned (default dflt (d !! key))
  | _ =>
      Raised (Exn AttributeError
                ("'" +:+ type_name data +:+ "' object has no attribute 'get'"))
  end.

(** [float(n)] for an int [n]: the nearest binary64, or [OverflowError]. *)
Definition float_of_int (n : Z) : outcome float :=
  let f := SF2Prim (binary_normalize prec emax n 0 false) in
  if is_infinity f
  then Raised (Exn OverflowError "int too large to convert to float")
  else Returned f.

Fixpoint str_repeat (n : nat) (s : string) : string :=
  match n with
  | O => ""
  | S n' => s +:+ str_repeat n' s
  end.

Fixpoint list_repeat {A} (n : nat) (l : list A) : list A :=
  match n with
  | O => []
  | S n' => l ++ list_repeat n' l
  end.

(** [x * n] for an int literal [n]: int product for bool and int, float
    product for a float, repetition for str and list, [TypeError] otherwise. *)
Definition py_mul (x : pyval) (n : Z) : outcome pyval :=
  match x with
  | PyBool b => Returned (PyInt (Z.b2z b * n))
  | PyInt m => Returned (PyInt (m * n))
  | PyFloat f => let? g := float_of_int n in Returned (PyFloat (f * g)%float)
  | PyStr s => Returned (PyStr (str_repeat (Z.to_nat n) s))
  | PyList l => Returned (PyList (list_repeat (Z.to_nat n) l))
  | PyNone | PyDict _ =>
      Raised (Exn TypeError
                ("unsupported operand type(s) for *: '" +:+ type_name x
                 +:+ "' and 'int'"))
  end.

(** [a[i]] on a one-dimensional numpy array, for [i >= 0]. *)
Definition getitem (a : list float) (i : nat) : outcome float :=
  match a !! i with
  | Some x => Returned x
  | None =>
      Raised (Exn IndexError
                ("index " +:+ pretty i +:+ " is out of bounds for axis 0 with size "
                 +:+ pretty (length a)))
  end.

(** ** The collaborators *)

(** What [safe_sim.solve] gives back, reduced to the four variables the
    worker reads: the [entries] arrays of 'Time [s]', 'Battery voltage [V]',
    'Current [A]' and 'Discharge capacity [A.h]'. *)
Record solution := Solution {
  sol_time_s : list float;
  sol_voltage : list float;
  sol_current : list float;
  sol_dcap : list float
}.

(** The observable calls, in the order they are made. *)
Inductive event :=
| EvSimulation (params : gmap string pyval)
| EvSolve (params : gmap string pyval) (t_eval : pyval)
| EvPost (url : string) (json : pyval).

(** PyBaMM and the HTTP client, as the worker sees them.
    [pybamm_Simulation params] stands for lines 33-44: the DFN model, the
    Casadi solver, the Chen2020 parameter values updated with [params], and
    the [Simulation] object.  [pybamm_solve params t_eval] is
    [safe_sim.solve(t_eval)] on that object.  [requests_post url json] is
    [requests.post(url, json=json)]: it raises on a transport failure. *)
Record world := World {
  pybamm_Simulation : gmap string pyval -> outcome unit;
  pybamm_solve : gmap string pyval -> pyval -> outcome solution;
  requests_post : string -> pyval -> outcome unit
}.

(** ** The state-and-exception monad *)

(** [events] is the log of calls made so far; [result_holder] is the dict
    that [simulate] allocates and shares with the worker thread. *)
Record store := Store {
  events : list event;
  result_holder : gmap string pyval
}.

Definition init_store : store := Store [] ∅.

Definition M (A : Type) : Type := store -> outcome A * store.

Definition ret {A} (a : A) : M A := fun s => (Returned a, s).

Definition bind {A B} (c : M A) (k : A -> M B) : M B :=
  fun s =>
    match c s with
    | (Returned a, s') => k a s'
    | (Raised e, s') => (Raised e, s')
    end.

Notation "'let*' x := c 'in' k" := (bind c (fun x => k))
  (at level 10, x name, c at level 100, k at level 200, only parsing).
Notation "'do' c 'then' k" := (bind c (fun _ => k))
  (at level 10, c at level 100, k at level 200, only parsing).

Definition lift {A} (c : outcome A) : M A := fun s => (c, s).

(** [try: body  except Exception as e: handler e] *)
Definition try_except {A} (body : M A) (handler : exn -> M A) : M A :=
  fun s =>
    match body s with
    | (Returned a, s') => (Returned a, s')
    | (Raised e, s') => handler e s'
    end.

Definition emit (ev : event) : M unit :=
  fun s => (Returned tt, Store (events s ++ [ev]) (result_holder s)).

(** [result_holder = d] *)
Definition new_result_holder (d : gmap string pyval) : M unit :=
  fun s => (Returned tt, Store (events s) d).

(** [result_holder[key] = v] *)
Definition result_holder_set (key : string) (v : pyval) : M unit :=
  fun s => (Returned tt, Store (events s) (<[key := v]> (result_holder s))).

(** [result_holder[key]] *)
Definition result_holder_get (key : string) : M pyval :=
  fun s =>
    match result_holder s !! key with
    | Some v => (Returned v, s)
    | None => (Raised (Exn Exception ("'" +:+ key +:+ "'")), s)
    end.

(** [thread = threading.Thread(target=...); thread.start(); thread.join()]:
    the caller resumes when the target has finished.  The target's return
    value is dropped, and so is an exception that escapes it. *)
Definition Thread_start_join {A} (target : M A) : M unit :=
  fun s => (Returned tt, snd (target s)).

(** ** The program *)

(** Line 26: the URL the results are sent back to. *)
Definition return_url : string := "http://localhost:8083/updateBatteryResults".

Definition nl : string := String (Ascii.ascii_of_nat 10) "".

(** Lines 58-63: the dict built for time step [i]. *)
Definition data_point (solution : solution) (i : nat) : outcome pyval :=
  let? t := getitem (sol_time_s solution) i in
  let? v := getitem (sol_voltage solution) i in
  let? c := getitem (sol_current solution) i in
  let? q := getitem (sol_dcap solution) i in
  Returned (PyDict (<["time" := PyFloat t]>
                   (<["voltage" := PyFloat v]>
                   (<["current" := PyFloat c]>
                   (<["dcap" := PyFloat q]> ∅))))).

(** Lines 57-64: the body of the [for] loop run over the indices [range_],
    appending to [combined_data]. *)
Fixpoint for_range (solution : solution) (range_ : list nat)
    (combined_data : list pyval) : outcome (list pyval) :=
  match range_ with
  | [] => Returned combined_data
  | i :: rest =>
      let? p := data_point solution i in
      for_range solution rest (combined_data ++ [p])
  end.

(** Lines 50-64: [combined_data] after the loop over
    [range(len(time_s))]. *)
Definition combined_data (solution : solution) : outcome (list pyval) :=
  for_range solution (seq 0 (length (sol_time_s solution))) [].

Section Program.

Variable W : world.

(** Lines 32-72: the [try] block of [simulate_battery]. *)
Definition simulate_battery_try (params : gmap string pyval)
    (hours id : pyval) : M unit :=
  do emit (EvSimulation params) then
  do lift (pybamm_Simulation W params) then
  let* seconds := lift (let? m := py_mul hours 60 in py_mul m 60) in
  let t_eval := PyList [PyInt 0; seconds] in
  do emit (EvSolve params t_eval) then
  let* solution := lift (pybamm_solve W params t_eval) in
  let* combined := lift (combined_data solution) in
  let json := PyDict (<["id" := id]> (<["result" := PyList combined]> ∅)) in
  do emit (EvPost return_url json) then
  do lift (requests_post W return_url json) then
  result_holder_set "result" (PyList combined).

(** Lines 30-77: [simulate_battery].  It returns [None] when the [try] block
    completes and the error dict built by the matching [except] clause
    otherwise. *)
Definition simulate_battery (params : gmap string pyval)
    (hours id : pyval) : M pyval :=
  try_except
    (do simulate_battery_try params hours id then ret PyNone)
    (fun e =>
       if is_SolverError e
       then ret (PyDict {[ "error" :=
              PyStr ("SolverError:" +:+ nl +:+
                     "Voltage cut-off values should be relative to 2.5V and 4.2V: "
                     +:+ str e) ]})
       else ret (PyDict {[ "error" := PyStr ("Error: " +:+ str e) ]})).

(** Lines 123-128: the parameters handed to the engine. *)
Definition custom_parameters (data : pyval) : outcome (gmap string pyval) :=
  let? upper := py_get data "upperVoltage" (PyFloat 4.2) in
  let? lower := py_get data "lowerVoltage" (PyFloat 2.5) in
  let? nominal := py_get data "nominalCell" (PyFloat 8.6) in
  let? current := py_get data "controlCurrent" (PyInt 5) in
  Returned (<["Upper voltage cut-off [V]" := upper]>
           (<["Lower voltage cut-off [V]" := lower]>
           (<["Nominal cell capacity [A.h]" := nominal]>
           (<["Current function [A]" := current]> ∅)))).

(** Line 143 and line 146: the JSON bodies [jsonify] is given. *)
Definition job_started (sim_results : pyval) : pyval :=
  PyDict (<["jobStarted" := PyBool true]>
         (<["simulationResults" := sim_results]> ∅)).

Definition error_body (message : string) : pyval :=
  PyDict {[ "error" := PyStr message ]}.

(** Lines 84-143: the [try] block of [simulate]; [get_json] is what
    [request.get_json()] evaluates to. *)
Definition simulate_try (get_json : outcome pyval) : M pyval :=
  let* data := lift get_json in
  let* hours := lift (py_get data "time" (PyInt 1)) in
  let* id := lift (py_get data "id" PyNone) in
  let* params := lift (custom_parameters data) in
  do new_result_holder {[ "result" := PyNone ]} then
  do Thread_start_join (simulate_battery params hours id) then
  let* sim_results := result_holder_get "result" in
  ret (job_started sim_results).

(** Lines 81-146: the handler of [POST /simulate]. *)
Definition simulate (get_json : outcome pyval) : M pyval :=
  try_except (simulate_try get_json) (fun e => ret (error_body (str e))).

End Program.

(** ** Reading the log *)

Definition solve_durations (tr : list event) : list pyval :=
  flat_map (fun ev =>
    match ev with
    | EvSolve _ (PyList [_; seconds]) => [seconds]
    | _ => []
    end) tr.

Definition posts (tr : list event) : list (string * pyval) :=
  flat_map (fun ev =>
    match ev with
    | EvPost url json => [(url, json)]
    | _ => []
    end) tr.

Definition engine_calls (tr : list event) : list event :=
  flat_map (fun ev =>
    match ev with
    | EvPost _ _ => []
    | _ => [ev]
    end) tr.

(** One request served from a fresh store: the response body and the store
    the handler returns with. *)
Definition serve (W : world) (get_json : outcome pyval) : outcome pyval * store :=
  simulate W get_json init_store.

(** [log s ev]: the store after one more call. *)
Definition log (s : store) (ev : event) : store :=
  Store (events s ++ [ev]) (result_holder s).

(** The store in which the worker thread starts. *)
Definition thread_store : store := Store [] {[ "result" := PyNone ]}.

(** ** What the specification asks of a run *)

(** The request was turned down before the engine was touched: the answer
    is an error body and the log has no engine call. *)
Definition rejected_before_engine (r : outcome pyval * store) : Prop :=
  (exists msg, fst r = Returned (error_body msg)) /\
  engine_calls (events (snd r)) = [].

(** The job manager was sent something. *)
Definition callback_invoked (tr : list event) : Prop := posts tr <> [].

(** The POST was attempted again. *)
Definition delivery_retried (tr : list event) : Prop :=
  (2 <= length (posts tr))%nat.

(** Every duration handed to [solve] is [hours * 3600]. *)
Definition duration_is_hours_times_3600 (W : world) (d : gmap string pyval) : Prop :=
  forall seconds : pyval,
    seconds ∈ solve_durations (events (snd (serve W (Returned (PyDict d))))) ->
    py_mul (default (PyInt 1) (d !! "time")) 3600 = Returned seconds.

(** The answer does not depend on what the engine computed. *)
Definition answered_before_engine (d : gmap string pyval) : Prop :=
  forall W1 W2 : world,
    fst (serve W1 (Returned (PyDict d))) = fst (serve W2 (Returned (PyDict d))).

(** ** Sample solutions, worlds and requests *)

Definition two_steps : solution :=
  Solution [0%float; 3600%float] [4.1%float; 3.2%float]
           [5%float; 5%float] [0%float; 5%float].

(** Everything works: the engine returns [two_steps]. *)
Definition w_ok : world :=
  World (fun _ => Returned tt)
        (fun _ _ => Returned two_steps)
        (fun _ _ => Returned tt).

(** The solver does not converge. *)
Definition w_solver_error : world :=
  World (fun _ => Returned tt)
        (fun _ _ => Raised (Exn SolverError "corrector convergence failed"))
        (fun _ _ => Returned tt).

(** The job manager is down. *)
Definition w_refused : world :=
  World (fun _ => Returned tt)
        (fun _ _ => Returned two_steps)
        (fun _ _ => Raised (Exn ConnectionError "Connection refused")).

Definition req_J1 : gmap string pyval := {[ "id" := PyStr "J1" ]}.

Definition req_inverted_cutoffs : gmap string pyval :=
  <["upperVoltage" := PyFloat 2.0]> (<["lowerVoltage" := PyFloat 4.2]> ∅).

Definition req_float_hours : gmap string pyval := {[ "time" := PyFloat 1.1 ]}.

(** The voltage array is one entry short of the time array. *)
Definition short_voltage : solution :=
  Solution [0%float; 3600%float] [4.1%float]
           [5%float; 5%float] [0%float; 5%float].

Definition w_short_voltage : world :=
  World (fun _ => Returned tt)
        (fun _ _ => Returned short_voltage)
        (fun _ _ => Returned tt).

(** The parameter values are refused when the simulation is built. *)
Definition w_build_error : world :=
  World (fun _ => Raised (Exn Exception "Cannot update parameter"))
        (fun _ _ => Returned two_steps)
        (fun _ _ => Returned tt).

Definition req_null_time : gmap string pyval := {[ "time" := PyNone ]}.

Definition req_str_time : gmap string pyval := {[ "time" := PyStr "2" ]}.

Definition req_J1_note : gmap string pyval :=
  <["note" := PyStr "ignored"]> req_J1.

(** * Properties *)

(** ** The loop that builds [combined_data] *)

Lemma getitem_lookup (a : list float) (i : nat) (x : float) :
  a !! i = Some x -> getitem a i = Returned x.
Proof. intros H. unfold getitem. now rewrite H. Qed.

Lemma getitem_short (a : list float) (i : nat) :
  (length a <= i)%nat -> exists e, getitem a i = Raised e /\ exn_cls e = IndexError.
Proof.
  intros H. unfold getitem. rewrite (lookup_ge_None_2 a i H). eauto.
Qed.

Lemma for_range_seq (sol : solution) (n : nat) :
  forall (start : nat) (acc : list pyval),
    (start + n <= length (sol_time_s sol))%nat ->
    (start + n <= length (sol_voltage sol))%nat ->
    (start + n <= length (sol_current sol))%nat ->
    (start + n <= length (sol_dcap sol))%nat ->
    exists cd : list pyval,
      for_range sol (seq start n) acc = Returned (acc ++ cd) /\
      length cd = n /\
      forall j : nat, (j < n)%nat ->
        exists t v c q,
          sol_time_s sol !! (start + j)%nat = Some t /\
          sol_voltage sol !! (start + j)%nat = Some v /\
          sol_current sol !! (start + j)%nat = Some c /\
          sol_dcap sol !! (start + j)%nat = Some q /\
          cd !! j = Some (PyDict (<["time" := PyFloat t]>
                                 (<["voltage" := PyFloat v]>
                                 (<["current" := PyFloat c]>
                                 (<["dcap" := PyFloat q]> ∅))))).
Proof.
  induction n as [|n IH]; intros start acc Ht Hv Hc Hq.
  - exists []. cbn. rewrite app_nil_r. repeat split; auto. intros j Hj. lia.
  - destruct (lookup_lt_is_Some_2 (sol_time_s sol) start) as [t Et]; [lia|].
    destruct (lookup_lt_is_Some_2 (sol_voltage sol) start) as [v Ev]; [lia|].
    destruct (lookup_lt_is_Some_2 (sol_current sol) start) as [c Ec]; [lia|].
    destruct (lookup_lt_is_Some_2 (sol_dcap sol) start) as [q Eq]; [lia|].
    destruct (IH (S start)
                (acc ++ [PyDict (<["time" := PyFloat t]>
                                (<["voltage" := PyFloat v]>
                                (<["current" := PyFloat c]>
                                (<["dcap" := PyFloat q]> ∅))))]))
      as (cd & Hrun & Hlen & Hsamples); try lia.
    eexists (_ :: cd). split; [|split].
    + cbn [seq for_range]. unfold data_point, obind.
      rewrite (getitem_lookup _ _ _ Et), (getitem_lookup _ _ _ Ev),
        (getitem_lookup _ _ _ Ec), (getitem_lookup _ _ _ Eq).
      rewrite Hrun, <- app_assoc. reflexivity.
    + cbn. now rewrite Hlen.
    + intros [|j] Hj.
      * rewrite Nat.add_0_r. exists t, v, c, q. auto.
      * replace (start + S j)%nat with (S start + j)%nat by lia.
        apply Hsamples. lia.
Qed.

(** C10. When the solution's voltage, current and discharge-capacity arrays
    are at least as long as its time array, the loop completes; the list it
    builds has one element per time step, and element [i] is the dict made of
    entry [i] of the time, voltage, current and discharge-capacity arrays. *)
Theorem combined_data_one_sample_per_step (sol : solution) :
  (length (sol_time_s sol) <= length (sol_voltage sol))%nat ->
  (length (sol_time_s sol) <= length (sol_current sol))%nat ->
  (length (sol_time_s sol) <= length (sol_dcap sol))%nat ->
  exists cd : list pyval,
    combined_data sol = Returned cd /\
    length cd = length (sol_time_s sol) /\
    forall i : nat, (i < length (sol_time_s sol))%nat ->
      exists t v c q,
        sol_time_s sol !! i = Some t /\
        sol_voltage sol !! i = Some v /\
        sol_current sol !! i = Some c /\
        sol_dcap sol !! i = Some q /\
        cd !! i = Some (PyDict (<["time" := PyFloat t]>
                               (<["voltage" := PyFloat v]>
                               (<["current" := PyFloat c]>
                               (<["dcap" := PyFloat q]> ∅))))).
Proof.
  intros Hv Hc Hq.
  destruct (for_range_seq sol (length (sol_time_s sol)) 0%nat [])
    as (cd & Hrun & Hlen & Hsamples); cbn; auto.
  exists cd. unfold combined_data. rewrite Hrun. auto.
Qed.

Lemma combined_data_one_sample_per_step_witness :
  exists cd : list pyval,
    combined_data two_steps = Returned cd /\
    length cd = length (sol_time_s two_steps) /\
    forall i : nat, (i < length (sol_time_s two_steps))%nat ->
      exists t v c q,
        sol_time_s two_steps !! i = Some t /\
        sol_voltage two_steps !! i = Some v /\
        sol_current two_steps !! i = Some c /\
        sol_dcap two_steps !! i = Some q /\
        cd !! i = Some (PyDict (<["time" := PyFloat t]>
                               (<["voltage" := PyFloat v]>
                               (<["current" := PyFloat c]>
                               (<["dcap" := PyFloat q]> ∅))))).
Proof.
  apply (combined_data_one_sample_per_step two_steps); simpl; lia.
Defined.

(** ** The worker, step by step *)

Lemma simulate_battery_try_eq (W : world) (p : gmap string pyval)
    (h i : pyval) (s : store) :
  simulate_battery_try W p h i s =
  let s1 := log s (EvSimulation p) in
  match pybamm_Simulation W p with
  | Raised e => (Raised e, s1)
  | Returned _ =>
      match (let? m := py_mul h 60 in py_mul m 60) with
      | Raised e => (Raised e, s1)
      | Returned seconds =>
          let t_eval := PyList [PyInt 0; seconds] in
          let s2 := log s1 (EvSolve p t_eval) in
          match pybamm_solve W p t_eval with
          | Raised e => (Raised e, s2)
          | Returned sol =>
              match combined_data sol with
              | Raised e => (Raised e, s2)
              | Returned cd =>
                  let json :=
                    PyDict (<["id" := i]> (<["result" := PyList cd]> ∅)) in
                  let s3 := log s2 (EvPost return_url json) in
                  match requests_post W return_url json with
                  | Raised e => (Raised e, s3)
                  | Returned _ =>
                      (Returned tt,
                       Store (events s3)
                             (<["result" := PyList cd]> (result_holder s3)))
                  end
              end
          end
      end
  end.
Proof.
  unfold simulate_battery_try, bind, emit, lift, result_holder_set, log.
  cbn [events result_holder].
  destruct (pybamm_Simulation W p); [|reflexivity].
  destruct (let? m := py_mul h 60 in py_mul m 60); [|reflexivity].
  cbn [events result_holder].
  destruct (pybamm_solve W p _); [|reflexivity].
  destruct (combined_data _); [|reflexivity].
  cbn [events result_holder].
  destruct (requests_post W _ _); reflexivity.
Qed.

(** The worker never lets an exception escape, and it leaves in
    [result_holder] either what was there or the list it built. *)
Lemma simulate_battery_returns (W : world) (p : gmap string pyval)
    (h i : pyval) (s : store) :
  exists v s', simulate_battery W p h i s = (Returned v, s') /\
    (result_holder s' = result_holder s \/
     exists cd, result_holder s' = <["result" := PyList cd]> (result_holder s)).
Proof.
  unfold simulate_battery, try_except, bind.
  rewrite simulate_battery_try_eq. cbv zeta.
  repeat match goal with
         | |- context [match ?c with Returned _ => _ | Raised _ => _ end] =>
             destruct c
         end;
    try (destruct (is_SolverError _));
    unfold ret; cbn [log events result_holder]; eauto 6.
Qed.

(** Serving a JSON object: the worker runs to its end on the parameters
    read from the object, then the response is built from [result_holder]. *)
Lemma serve_dict (W : world) (d : gmap string pyval) :
  exists p : gmap string pyval,
    custom_parameters (PyDict d) = Returned p /\
    let s' := snd (simulate_battery W p (default (PyInt 1) (d !! "time"))
                     (default PyNone (d !! "id")) thread_store) in
    exists r, result_holder s' !! "result" = Some r /\
      serve W (Returned (PyDict d)) = (Returned (job_started r), s').
Proof.
  eexists. split; [reflexivity|]. cbv zeta.
  destruct (simulate_battery_returns W
              (<["Upper voltage cut-off [V]" := default (PyFloat 4.2) (d !! "upperVoltage")]>
              (<["Lower voltage cut-off [V]" := default (PyFloat 2.5) (d !! "lowerVoltage")]>
              (<["Nominal cell capacity [A.h]" := default (PyFloat 8.6) (d !! "nominalCell")]>
              (<["Current function [A]" := default (PyInt 5) (d !! "controlCurrent")]> ∅))))
              (default (PyInt 1) (d !! "time")) (default PyNone (d !! "id"))
              thread_store) as (v & s' & Hrun & Hholder).
  assert (Hr : exists r, result_holder s' !! "result" = Some r).
  { destruct Hholder as [E | [cd E]]; rewrite E.
    - exists PyNone. apply lookup_singleton_eq.
    - eexists. apply lookup_insert_eq. }
  destruct Hr as [r Hr]. exists r.
  unfold serve, simulate, simulate_try, try_except, bind, lift,
    custom_parameters, py_get, obind, new_result_holder, Thread_start_join,
    result_holder_get, init_store.
  cbn [events result_holder].
  fold thread_store. rewrite Hrun. cbn [snd].
  split; [exact Hr | now rewrite Hr].
Qed.

Lemma simulate_battery_store (W : world) (p : gmap string pyval)
    (h i : pyval) (s : store) :
  snd (simulate_battery W p h i s) = snd (simulate_battery_try W p h i s).
Proof.
  unfold simulate_battery, try_except, bind, ret.
  destruct (simulate_battery_try W p h i s) as [[[]|e] s']; cbn [snd];
    [reflexivity|].
  destruct (is_SolverError e); reflexivity.
Qed.

(** The handler's answer to a JSON object, read off the [try] block of the
    worker. *)
Lemma serve_worker (W : world) (d : gmap string pyval) (p : gmap string pyval) :
  custom_parameters (PyDict d) = Returned p ->
  serve W (Returned (PyDict d)) =
  let s' := snd (simulate_battery_try W p (default (PyInt 1) (d !! "time"))
                   (default PyNone (d !! "id")) thread_store) in
  (Returned (job_started (default PyNone (result_holder s' !! "result"))), s').
Proof.
  intros Hp. destruct (serve_dict W d) as (p' & Hp' & r & Hr & Hserve).
  rewrite Hp in Hp'. injection Hp' as <-.
  rewrite simulate_battery_store in Hr, Hserve.
  cbv zeta. rewrite Hserve, Hr. reflexivity.
Qed.

Ltac run_worker :=
  rewrite simulate_battery_try_eq; cbv zeta;
  repeat match goal with
         | H : ?c = _ |- context [match ?c with Returned _ => _ | Raised _ => _ end] =>
             rewrite H
         end;
  cbn [log thread_store events result_holder app snd fst].

(** ** Normalisation of the request *)

(** C5. For a JSON-object request, each parameter handed to the engine and
    the duration in hours are the request's field when the field is present
    and the default otherwise: 4.2, 2.5, 8.6, 5 and 1.  These are the values
    the handler runs on: the engine is first called with these parameters,
    the handler's run is the worker's run on these parameters and this
    duration, and the solver is handed this duration times 60 times 60. *)
Theorem defaults_applied (W : world) (d : gmap string pyval) :
  let p :=
    <["Upper voltage cut-off [V]" := default (PyFloat 4.2) (d !! "upperVoltage")]>
    (<["Lower voltage cut-off [V]" := default (PyFloat 2.5) (d !! "lowerVoltage")]>
    (<["Nominal cell capacity [A.h]" := default (PyFloat 8.6) (d !! "nominalCell")]>
    (<["Current function [A]" := default (PyInt 5) (d !! "controlCurrent")]> ∅))) in
  custom_parameters (PyDict d) = Returned p /\
  py_get (PyDict d) "time" (PyInt 1) = Returned (default (PyInt 1) (d !! "time")) /\
  p !! "Upper voltage cut-off [V]"
    = Some (match d !! "upperVoltage" with Some v => v | None => PyFloat 4.2 end) /\
  p !! "Lower voltage cut-off [V]"
    = Some (match d !! "lowerVoltage" with Some v => v | None => PyFloat 2.5 end) /\
  p !! "Nominal cell capacity [A.h]"
    = Some (match d !! "nominalCell" with Some v => v | None => PyFloat 8.6 end) /\
  p !! "Current function [A]"
    = Some (match d !! "controlCurrent" with Some v => v | None => PyInt 5 end) /\
  default (PyInt 1) (d !! "time")
    = match d !! "time" with Some v => v | None => PyInt 1 end /\
  (exists tr, events (snd (serve W (Returned (PyDict d)))) = EvSimulation p :: tr) /\
  snd (serve W (Returned (PyDict d)))
    = snd (simulate_battery W p
             (match d !! "time" with Some v => v | None => PyInt 1 end)
             (default PyNone (d !! "id")) thread_store) /\
  solve_durations (events (snd (serve W (Returned (PyDict d)))))
    = match pybamm_Simulation W p,
            (let? m := py_mul (match d !! "time" with
                               | Some v => v
                               | None => PyInt 1
                               end) 60 in
             py_mul m 60) with
      | Returned _, Returned seconds => [seconds]
      | _, _ => []
      end.
Proof.
  cbv zeta. split; [reflexivity|]. split; [reflexivity|].
  assert (Htime : default (PyInt 1) (d !! "time")
                  = match d !! "time" with Some v => v | None => PyInt 1 end)
    by now destruct (d !! "time").
  rewrite <- Htime.
  split; [|split; [|split; [|split; [|split; [|split; [|split]]]]]].
  - rewrite lookup_insert_eq. now destruct (d !! "upperVoltage").
  - rewrite lookup_insert_ne by done. rewrite lookup_insert_eq.
    now destruct (d !! "lowerVoltage").
  - do 2 (rewrite lookup_insert_ne by done). rewrite lookup_insert_eq.
    now destruct (d !! "nominalCell").
  - do 3 (rewrite lookup_insert_ne by done). rewrite lookup_insert_eq.
    now destruct (d !! "controlCurrent").
  - reflexivity.
  - erewrite serve_worker by reflexivity. cbv zeta. cbn [snd].
    rewrite simulate_battery_try_eq. cbv zeta.
    repeat match goal with
           | |- context [match ?c with Returned _ => _ | Raised _ => _ end] =>
               destruct c
           end;
      cbn [log thread_store events result_holder app snd fst]; eauto.
  - erewrite serve_worker by reflexivity. cbv zeta. cbn [snd].
    now rewrite simulate_battery_store.
  - erewrite serve_worker by reflexivity. cbv zeta. cbn [snd].
    rewrite simulate_battery_try_eq. cbv zeta.
    destruct (pybamm_Simulation W _); [|reflexivity].
    destruct (let? m := py_mul _ 60 in py_mul m 60); [|reflexivity].
    repeat match goal with
           | |- context [match ?c with Returned _ => _ | Raised _ => _ end] =>
               destruct c
           end;
      reflexivity.
Qed.

(** ** The callback *)

(** C7. When the simulation is built, the duration is computed, the solve
    returns and the loop completes, the run makes exactly one POST: to
    [return_url], with the body [{'id': id, 'result': combined_data}], where
    [id] is the request's id ([None] when absent). *)
Theorem success_posts_id_and_result (W : world) (d p : gmap string pyval)
    (seconds : pyval) (sol : solution) (cd : list pyval) :
  custom_parameters (PyDict d) = Returned p ->
  pybamm_Simulation W p = Returned tt ->
  (let? m := py_mul (default (PyInt 1) (d !! "time")) 60 in py_mul m 60)
    = Returned seconds ->
  pybamm_solve W p (PyList [PyInt 0; seconds]) = Returned sol ->
  combined_data sol = Returned cd ->
  posts (events (snd (serve W (Returned (PyDict d))))) =
    [(return_url,
      PyDict (<["id" := default PyNone (d !! "id")]>
             (<["result" := PyList cd]> ∅)))].
Proof.
  intros Hp Hsim Hsec Hsolve Hcd.
  rewrite (serve_worker W d p Hp). cbv zeta. cbn [snd].
  run_worker.
  destruct (requests_post W _ _); reflexivity.
Qed.

Lemma success_posts_id_and_result_witness :
  posts (events (snd (serve w_ok (Returned (PyDict req_J1))))) =
    [(return_url,
      PyDict (<["id" := PyStr "J1"]>
             (<["result" := PyList
                  [PyDict (<["time" := PyFloat 0]> (<["voltage" := PyFloat 4.1]>
                          (<["current" := PyFloat 5]> (<["dcap" := PyFloat 0]> ∅))));
                   PyDict (<["time" := PyFloat 3600]> (<["voltage" := PyFloat 3.2]>
                          (<["current" := PyFloat 5]> (<["dcap" := PyFloat 5]> ∅))))]]> ∅)))].
Proof.
  eapply (success_posts_id_and_result w_ok req_J1 _ (PyInt 3600) two_steps);
    reflexivity.
Defined.

(** ** The synchronous response *)




(** C2. No request is turned down for its values.  For every JSON-object
    request, whatever its cutoffs, duration and capacity, the engine is
    called first thing with the parameters read from the request, and the
    answer is the [jobStarted] body. *)
Theorem no_validation (W : world) (d : gmap string pyval) :
  exists (p : gmap string pyval) (r : pyval) (tr : list event),
    custom_parameters (PyDict d) = Returned p /\
    serve W (Returned (PyDict d))
      = (Returned (job_started r), Store (EvSimulation p :: tr) (<["result" := r]> ∅)) /\
    engine_calls (EvSimulation p :: tr) <> [].
Proof.
  eexists. 
  assert (Hp : custom_parameters (PyDict d) = Returned
    (<["Upper voltage cut-off [V]" := default (PyFloat 4.2) (d !! "upperVoltage")]>
    (<["Lower voltage cut-off [V]" := default (PyFloat 2.5) (d !! "lowerVoltage")]>
    (<["Nominal cell capacity [A.h]" := default (PyFloat 8.6) (d !! "nominalCell")]>
    (<["Current function [A]" := default (PyInt 5) (d !! "controlCurrent")]> ∅)))))
    by reflexivity.
  rewrite (serve_worker W d _ Hp). cbv zeta.
  rewrite simulate_battery_try_eq. cbv zeta.
  repeat match goal with
         | |- context [match ?c with Returned _ => _ | Raised _ => _ end] =>
             destruct c
         end;
    cbn [log thread_store events result_holder app snd fst];
    rewrite ?lookup_insert_eq, ?lookup_singleton_eq; cbn [default];
    rewrite ?insert_singleton_eq;
    do 2 eexists; (split; [reflexivity|]); (split; [reflexivity|]);
    discriminate.
Qed.

(** C2, as stated, fails: with the upper cutoff 2.0 below the lower cutoff
    4.2 the request is not turned down. *)
Lemma inverted_cutoffs_reach_engine :
  (2.0 <=? 4.2)%float = true /\
  ~ rejected_before_engine (serve w_ok (Returned (PyDict req_inverted_cutoffs))).
Proof.
  split; [reflexivity|].
  intros [_ H]. vm_compute in H. discriminate H.
Qed.

(** ** The handler waits for the worker *)

(** C1.  On the request [{'id': 'J1'}], with an engine that returns two time
    steps, the handler's answer carries the two samples and the log it
    returns with holds the engine calls and the POST: the handler resumed
    after the worker had finished. *)
Theorem handler_waits_for_engine :
  let p := <["Upper voltage cut-off [V]" := PyFloat 4.2]>
           (<["Lower voltage cut-off [V]" := PyFloat 2.5]>
           (<["Nominal cell capacity [A.h]" := PyFloat 8.6]>
           (<["Current function [A]" := PyInt 5]> ∅))) in
  let samples := PyList
    [PyDict (<["time" := PyFloat 0]> (<["voltage" := PyFloat 4.1]>
            (<["current" := PyFloat 5]> (<["dcap" := PyFloat 0]> ∅))));
     PyDict (<["time" := PyFloat 3600]> (<["voltage" := PyFloat 3.2]>
            (<["current" := PyFloat 5]> (<["dcap" := PyFloat 5]> ∅))))] in
  serve w_ok (Returned (PyDict req_J1)) =
    (Returned (job_started samples),
     Store [EvSimulation p;
            EvSolve p (PyList [PyInt 0; PyInt 3600]);
            EvPost return_url
              (PyDict (<["id" := PyStr "J1"]> (<["result" := samples]> ∅)))]
           {[ "result" := samples ]}) /\
  ~ answered_before_engine req_J1.
Proof.
  split; [vm_compute; reflexivity|].
  intros H. specialize (H w_ok w_solver_error).
  vm_compute in H. discriminate H.
Qed.

(** ** Failures *)

(** C3. When the solve raises a [pybamm.SolverError], the worker returns
    the dict [{'error': 'SolverError:\nVoltage cut-off values should be
    relative to 2.5V and 4.2V: ' + str(e)}] and the run makes no POST. *)
Theorem solver_error_caught_no_post (W : world) (d p : gmap string pyval)
    (seconds : pyval) (e : exn) :
  custom_parameters (PyDict d) = Returned p ->
  pybamm_Simulation W p = Returned tt ->
  (let? m := py_mul (default (PyInt 1) (d !! "time")) 60 in py_mul m 60)
    = Returned seconds ->
  pybamm_solve W p (PyList [PyInt 0; seconds]) = Raised e ->
  is_SolverError e = true ->
  fst (simulate_battery W p (default (PyInt 1) (d !! "time"))
         (default PyNone (d !! "id")) thread_store)
    = Returned (PyDict {[ "error" :=
        PyStr ("SolverError:" +:+ nl +:+
               "Voltage cut-off values should be relative to 2.5V and 4.2V: "
               +:+ str e) ]}) /\
  posts (events (snd (serve W (Returned (PyDict d))))) = [].
Proof.
  intros Hp Hsim Hsec Hsolve He. split.
  - unfold simulate_battery, try_except, bind. run_worker.
    rewrite He. reflexivity.
  - rewrite (serve_worker W d p Hp). cbv zeta. cbn [snd].
    run_worker. reflexivity.
Qed.

Lemma solver_error_caught_no_post_witness :
  fst (simulate_battery w_solver_error
         (<["Upper voltage cut-off [V]" := PyFloat 4.2]>
         (<["Lower voltage cut-off [V]" := PyFloat 2.5]>
         (<["Nominal cell capacity [A.h]" := PyFloat 8.6]>
         (<["Current function [A]" := PyInt 5]> ∅))))
         (default (PyInt 1) (req_J1 !! "time"))
         (default PyNone (req_J1 !! "id")) thread_store)
    = Returned (PyDict {[ "error" :=
        PyStr ("SolverError:" +:+ nl +:+
               "Voltage cut-off values should be relative to 2.5V and 4.2V: "
               +:+ "corrector convergence failed") ]}) /\
  posts (events (snd (serve w_solver_error (Returned (PyDict req_J1))))) = [].
Proof.
  apply (solver_error_caught_no_post w_solver_error req_J1 _ (PyInt 3600)
           (Exn SolverError "corrector convergence failed")); reflexivity.
Defined.

(** C3, as stated, fails: the solver error of [w_solver_error] is followed
    by no callback. *)
Lemma solver_error_not_reported :
  (forall p t_eval, pybamm_solve w_solver_error p t_eval
     = Raised (Exn SolverError "corrector convergence failed")) /\
  ~ callback_invoked
      (events (snd (serve w_solver_error (Returned (PyDict req_J1))))).
Proof.
  split; [reflexivity|].
  intros H. apply H. vm_compute. reflexivity.
Qed.

(** C4. When the POST raises, it has been attempted exactly once; the
    worker returns the dict [{'error': 'Error: ' + str(e)}], and
    [result_holder] keeps [None], so the answer carries no results. *)
Theorem post_failure_single_attempt (W : world) (d p : gmap string pyval)
    (seconds : pyval) (sol : solution) (cd : list pyval) (e : exn) :
  custom_parameters (PyDict d) = Returned p ->
  pybamm_Simulation W p = Returned tt ->
  (let? m := py_mul (default (PyInt 1) (d !! "time")) 60 in py_mul m 60)
    = Returned seconds ->
  pybamm_solve W p (PyList [PyInt 0; seconds]) = Returned sol ->
  combined_data sol = Returned cd ->
  requests_post W return_url
    (PyDict (<["id" := default PyNone (d !! "id")]>
            (<["result" := PyList cd]> ∅))) = Raised e ->
  is_SolverError e = false ->
  length (posts (events (snd (serve W (Returned (PyDict d)))))) = 1%nat /\
  fst (simulate_battery W p (default (PyInt 1) (d !! "time"))
         (default PyNone (d !! "id")) thread_store)
    = Returned (PyDict {[ "error" := PyStr ("Error: " +:+ str e) ]}) /\
  fst (serve W (Returned (PyDict d))) = Returned (job_started PyNone).
Proof.
  intros Hp Hsim Hsec Hsolve Hcd Hpost He. split; [|split].
  - rewrite (serve_worker W d p Hp). cbv zeta. cbn [snd].
    run_worker. reflexivity.
  - unfold simulate_battery, try_except, bind. run_worker.
    rewrite He. reflexivity.
  - rewrite (serve_worker W d p Hp). cbv zeta. cbn [fst].
    run_worker. reflexivity.
Qed.

Lemma post_failure_single_attempt_witness :
  length (posts (events (snd (serve w_refused (Returned (PyDict req_J1))))))
    = 1%nat /\
  fst (simulate_battery w_refused
         (<["Upper voltage cut-off [V]" := PyFloat 4.2]>
         (<["Lower voltage cut-off [V]" := PyFloat 2.5]>
         (<["Nominal cell capacity [A.h]" := PyFloat 8.6]>
         (<["Current function [A]" := PyInt 5]> ∅))))
         (default (PyInt 1) (req_J1 !! "time"))
         (default PyNone (req_J1 !! "id")) thread_store)
    = Returned (PyDict {[ "error" := PyStr ("Error: " +:+ "Connection refused") ]}) /\
  fst (serve w_refused (Returned (PyDict req_J1))) = Returned (job_started PyNone).
Proof.
  eapply (post_failure_single_attempt w_refused req_J1 _ (PyInt 3600) two_steps _
            (Exn ConnectionError "Connection refused")); reflexivity.
Defined.

(** C4, as stated, fails: the refused POST of [w_refused] is not attempted
    again. *)
Lemma refused_post_not_retried :
  (forall json, requests_post w_refused return_url json
     = Raised (Exn ConnectionError "Connection refused")) /\
  ~ delivery_retried
      (events (snd (serve w_refused (Returned (PyDict req_J1))))).
Proof.
  split; [reflexivity|].
  unfold delivery_retried. vm_compute. intros H.
  inversion H as [|? H']. inversion H'.
Qed.

(** ** The duration handed to the solver *)

Lemma string_app_assoc (a b c : string) : (a +:+ b) +:+ c = a +:+ (b +:+ c).
Proof.
  induction a as [|x a IH]; [reflexivity|].
  change (String x ((a +:+ b) +:+ c) = String x (a +:+ (b +:+ c))).
  now rewrite IH.
Qed.

Lemma str_repeat_add (s : string) (a b : nat) :
  str_repeat (a + b) s = str_repeat a s +:+ str_repeat b s.
Proof.
  induction a as [|a IH]; cbn [str_repeat Nat.add]; [reflexivity|].
  now rewrite IH, string_app_assoc.
Qed.

Lemma str_repeat_mul (s : string) (a b : nat) :
  str_repeat a (str_repeat b s) = str_repeat (a * b) s.
Proof.
  induction a as [|a IH]; cbn [str_repeat Nat.mul]; [reflexivity|].
  now rewrite IH, str_repeat_add.
Qed.

Lemma list_repeat_add {A} (l : list A) (a b : nat) :
  list_repeat (a + b) l = list_repeat a l ++ list_repeat b l.
Proof.
  induction a as [|a IH]; cbn [list_repeat Nat.add]; [reflexivity|].
  now rewrite IH, app_assoc.
Qed.

Lemma list_repeat_mul {A} (l : list A) (a b : nat) :
  list_repeat a (list_repeat b l) = list_repeat (a * b) l.
Proof.
  induction a as [|a IH]; cbn [list_repeat Nat.mul]; [reflexivity|].
  now rewrite IH, list_repeat_add.
Qed.

(** Multiplying by 60 twice is multiplying by 3600, except on floats, where
    each product is rounded. *)
Lemma mul_60_60 (h : pyval) :
  (forall f, h <> PyFloat f) ->
  (let? m := py_mul h 60 in py_mul m 60) = py_mul h 3600.
Proof.
  intros Hh. destruct h as [|b|n|f|s|l|d]; cbn [py_mul obind].
  - reflexivity.
  - do 2 f_equal. lia.
  - do 2 f_equal. lia.
  - now destruct (Hh f).
  - do 2 f_equal. rewrite str_repeat_mul. now f_equal.
  - do 2 f_equal. rewrite list_repeat_mul. now f_equal.
  - reflexivity.
Qed.

(** C6. When the simulation is built and [hours * 60 * 60] is defined, the
    solver is called exactly once, with that value as the end of the time
    span; and when [hours] is not a float that value is [hours * 3600]. *)
Theorem solve_duration (W : world) (d p : gmap string pyval) (seconds : pyval) :
  custom_parameters (PyDict d) = Returned p ->
  pybamm_Simulation W p = Returned tt ->
  (let? m := py_mul (default (PyInt 1) (d !! "time")) 60 in py_mul m 60)
    = Returned seconds ->
  solve_durations (events (snd (serve W (Returned (PyDict d))))) = [seconds] /\
  ((forall f, default (PyInt 1) (d !! "time") <> PyFloat f) ->
   py_mul (default (PyInt 1) (d !! "time")) 3600 = Returned seconds).
Proof.
  intros Hp Hsim Hsec. split.
  - rewrite (serve_worker W d p Hp). cbv zeta. cbn [snd].
    run_worker.
    repeat match goal with
           | |- context [match ?c with Returned _ => _ | Raised _ => _ end] =>
               destruct c
           end;
      reflexivity.
  - intros Hh. now rewrite <- (mul_60_60 _ Hh).
Qed.

Lemma solve_duration_witness :
  solve_durations (events (snd (serve w_ok (Returned (PyDict req_J1)))))
    = [PyInt 3600] /\
  ((forall f, default (PyInt 1) (req_J1 !! "time") <> PyFloat f) ->
   py_mul (default (PyInt 1) (req_J1 !! "time")) 3600 = Returned (PyInt 3600)).
Proof.
  eapply (solve_duration w_ok req_J1); reflexivity.
Defined.

(** C6, as stated, fails on a float: for 1.1 hours the solver is handed
    3960.0, while 1.1 * 3600 is 3960.0000000000005. *)
Lemma float_hours_rounded_twice :
  solve_durations (events (snd (serve w_ok (Returned (PyDict req_float_hours)))))
    = [PyFloat 3960] /\
  py_mul (PyFloat 1.1) 3600 = Returned (PyFloat 3960.0000000000005) /\
  ~ duration_is_hours_times_3600 w_ok req_float_hours.
Proof.
  split; [vm_compute; reflexivity|]. split; [vm_compute; reflexivity|].
  intros H. specialize (H (PyFloat 3960)).
  assert (Hin : PyFloat 3960 ∈
    solve_durations (events (snd (serve w_ok (Returned (PyDict req_float_hours)))))).
  { replace (solve_durations _) with [PyFloat 3960] by (vm_compute; reflexivity).
    apply list_elem_of_here. }
  apply H in Hin.
  apply (f_equal (fun o => match o with
                           | Returned (PyFloat x) => PrimFloat.eqb x 3960%float
                           | _ => false
                           end)) in Hin.
  vm_compute in Hin. discriminate Hin.
Qed.

(** * Further properties of the worker and of the handler *)

(** ** The loop on arrays of unequal length *)

Lemma data_point_raises (sol : solution) (i : nat) (e : exn) :
  data_point sol i = Raised e -> exn_cls e = IndexError.
Proof.
  unfold data_point, getitem, obind.
  destruct (sol_time_s sol !! i); [|intros [= <-]; reflexivity].
  destruct (sol_voltage sol !! i); [|intros [= <-]; reflexivity].
  destruct (sol_current sol !! i); [|intros [= <-]; reflexivity].
  destruct (sol_dcap sol !! i); [|intros [= <-]; reflexivity].
  discriminate.
Qed.

Lemma data_point_returned (sol : solution) (i : nat) (p : pyval) :
  data_point sol i = Returned p ->
  (i < length (sol_time_s sol))%nat /\ (i < length (sol_voltage sol))%nat /\
  (i < length (sol_current sol))%nat /\ (i < length (sol_dcap sol))%nat.
Proof.
  unfold data_point, getitem, obind.
  destruct (sol_time_s sol !! i) eqn:Et; [|discriminate].
  destruct (sol_voltage sol !! i) eqn:Ev; [|discriminate].
  destruct (sol_current sol !! i) eqn:Ec; [|discriminate].
  destruct (sol_dcap sol !! i) eqn:Eq; [|discriminate].
  intros _. repeat split; eapply lookup_lt_Some; eassumption.
Qed.

Lemma for_range_short (sol : solution) (n : nat) :
  forall (start : nat) (acc : list pyval),
    (start <= length (sol_voltage sol))%nat ->
    (start <= length (sol_current sol))%nat ->
    (start <= length (sol_dcap sol))%nat ->
    (length (sol_voltage sol) < start + n)%nat \/
    (length (sol_current sol) < start + n)%nat \/
    (length (sol_dcap sol) < start + n)%nat ->
    exists e, for_range sol (seq start n) acc = Raised e /\
              exn_cls e = IndexError.
Proof.
  induction n as [|n IH]; intros start acc Hv Hc Hq Hshort; [lia|].
  cbn [seq for_range]. unfold obind.
  destruct (data_point sol start) as [p|e] eqn:Ep.
  - destruct (data_point_returned _ _ _ Ep) as (_ & Hv' & Hc' & Hq').
    apply IH; lia.
  - exists e. split; [reflexivity|]. exact (data_point_raises _ _ _ Ep).
Qed.

(** X1. When the voltage, current or discharge-capacity array is shorter
    than the time array, the loop raises an [IndexError]: no list is
    built, not even a truncated one. *)
Theorem combined_data_short_array (sol : solution) :
  (length (sol_voltage sol) < length (sol_time_s sol))%nat \/
  (length (sol_current sol) < length (sol_time_s sol))%nat \/
  (length (sol_dcap sol) < length (sol_time_s sol))%nat ->
  exists e, combined_data sol = Raised e /\ exn_cls e = IndexError.
Proof.
  intros Hshort. unfold combined_data.
  apply for_range_short; cbn; lia.
Qed.

Lemma combined_data_short_array_witness :
  exists e, combined_data short_voltage = Raised e /\ exn_cls e = IndexError.
Proof.
  apply (combined_data_short_array short_voltage). left. simpl. lia.
Defined.

(** ** Runs that stop early *)

(** X2. When the loop over the solution raises, the solver has been called
    but nothing is posted and the answer carries no results. *)
Theorem loop_failure_delivers_nothing (W : world) (d p : gmap string pyval)
    (seconds : pyval) (sol : solution) (e : exn) :
  custom_parameters (PyDict d) = Returned p ->
  pybamm_Simulation W p = Returned tt ->
  (let? m := py_mul (default (PyInt 1) (d !! "time")) 60 in py_mul m 60)
    = Returned seconds ->
  pybamm_solve W p (PyList [PyInt 0; seconds]) = Returned sol ->
  combined_data sol = Raised e ->
  serve W (Returned (PyDict d)) =
    (Returned (job_started PyNone),
     Store [EvSimulation p; EvSolve p (PyList [PyInt 0; seconds])]
           {[ "result" := PyNone ]}).
Proof.
  intros Hp Hsim Hsec Hsolve Hcd.
  rewrite (serve_worker W d p Hp). cbv zeta.
  run_worker. rewrite lookup_singleton_eq. reflexivity.
Qed.

Lemma loop_failure_delivers_nothing_witness :
  serve w_short_voltage (Returned (PyDict req_J1)) =
    (Returned (job_started PyNone),
     Store [EvSimulation
              (<["Upper voltage cut-off [V]" := PyFloat 4.2]>
              (<["Lower voltage cut-off [V]" := PyFloat 2.5]>
              (<["Nominal cell capacity [A.h]" := PyFloat 8.6]>
              (<["Current function [A]" := PyInt 5]> ∅))));
            EvSolve
              (<["Upper voltage cut-off [V]" := PyFloat 4.2]>
              (<["Lower voltage cut-off [V]" := PyFloat 2.5]>
              (<["Nominal cell capacity [A.h]" := PyFloat 8.6]>
              (<["Current function [A]" := PyInt 5]> ∅))))
              (PyList [PyInt 0; PyInt 3600])]
           {[ "result" := PyNone ]}).
Proof.
  eapply (loop_failure_delivers_nothing w_short_voltage req_J1 _ (PyInt 3600)
            short_voltage); [reflexivity..|vm_compute; reflexivity].
Defined.

(** X3. When building the simulation raises, the solver is never called,
    nothing is posted, and the answer carries no results. *)
Theorem build_failure_stops_run (W : world) (d p : gmap string pyval) (e : exn) :
  custom_parameters (PyDict d) = Returned p ->
  pybamm_Simulation W p = Raised e ->
  serve W (Returned (PyDict d)) =
    (Returned (job_started PyNone),
     Store [EvSimulation p] {[ "result" := PyNone ]}).
Proof.
  intros Hp Hsim.
  rewrite (serve_worker W d p Hp). cbv zeta.
  run_worker. rewrite lookup_singleton_eq. reflexivity.
Qed.

Lemma build_failure_stops_run_witness :
  serve w_build_error (Returned (PyDict req_J1)) =
    (Returned (job_started PyNone),
     Store [EvSimulation
              (<["Upper voltage cut-off [V]" := PyFloat 4.2]>
              (<["Lower voltage cut-off [V]" := PyFloat 2.5]>
              (<["Nominal cell capacity [A.h]" := PyFloat 8.6]>
              (<["Current function [A]" := PyInt 5]> ∅))))]
           {[ "result" := PyNone ]}).
Proof.
  eapply (build_failure_stops_run w_build_error req_J1); reflexivity.
Defined.

(** X4. When the duration is [None] (an explicit null in the request, for
    which [get] does not give the default), [hours * 60] raises: the
    simulation is built but the solver is never called, nothing is posted,
    and the answer carries no results. *)
Theorem null_duration_never_solved (W : world) (d p : gmap string pyval) :
  custom_parameters (PyDict d) = Returned p ->
  d !! "time" = Some PyNone ->
  serve W (Returned (PyDict d)) =
    (Returned (job_started PyNone),
     Store [EvSimulation p] {[ "result" := PyNone ]}).
Proof.
  intros Hp Htime.
  rewrite (serve_worker W d p Hp). cbv zeta.
  rewrite simulate_battery_try_eq. cbv zeta. rewrite Htime.
  change (default (PyInt 1) (Some PyNone)) with PyNone.
  cbn [py_mul obind].
  destruct (pybamm_Simulation W p);
    cbn [log thread_store events result_holder app snd fst];
    rewrite lookup_singleton_eq; reflexivity.
Qed.

Lemma null_duration_never_solved_witness :
  serve w_ok (Returned (PyDict req_null_time)) =
    (Returned (job_started PyNone),
     Store [EvSimulation
              (<["Upper voltage cut-off [V]" := PyFloat 4.2]>
              (<["Lower voltage cut-off [V]" := PyFloat 2.5]>
              (<["Nominal cell capacity [A.h]" := PyFloat 8.6]>
              (<["Current function [A]" := PyInt 5]> ∅))))]
           {[ "result" := PyNone ]}).
Proof.
  eapply (null_duration_never_solved w_ok req_null_time); reflexivity.
Defined.

Lemma string_app_length (s r : string) :
  String.length (s +:+ r) = (String.length s + String.length r)%nat.
Proof.
  induction s as [|c s IHs]; [reflexivity|].
  change (String c s +:+ r) with (String c (s +:+ r)).
  cbn [String.length Nat.add]. now rewrite IHs.
Qed.

Lemma str_repeat_length (n : nat) (s : string) :
  String.length (str_repeat n s) = (n * String.length s)%nat.
Proof.
  induction n as [|n IH]; cbn [str_repeat Nat.mul]; [reflexivity|].
  now rewrite string_app_length, IH.
Qed.

(** X5. A duration given as a string is not converted to a number: the
    solver is handed the string repeated 3600 times, whose length is 3600
    times that of the string. *)
Theorem string_duration_repeated (W : world) (d p : gmap string pyval)
    (s : string) :
  custom_parameters (PyDict d) = Returned p ->
  pybamm_Simulation W p = Returned tt ->
  d !! "time" = Some (PyStr s) ->
  solve_durations (events (snd (serve W (Returned (PyDict d)))))
    = [PyStr (str_repeat 3600 s)] /\
  events (snd (serve W (Returned (PyDict d)))) !! 1%nat
    = Some (EvSolve p (PyList [PyInt 0; PyStr (str_repeat 3600 s)])) /\
  String.length (str_repeat 3600 s) = (3600 * String.length s)%nat.
Proof.
  intros Hp Hsim Htime.
  assert (Hsec : (let? m := py_mul (default (PyInt 1) (d !! "time")) 60 in
                  py_mul m 60) = Returned (PyStr (str_repeat 3600 s))).
  { rewrite Htime.
    change (default (PyInt 1) (Some (PyStr s))) with (PyStr s).
    cbn [py_mul obind]. change (Z.to_nat 60) with 60%nat.
    rewrite str_repeat_mul. reflexivity. }
  split; [|split].
  - rewrite (serve_worker W d p Hp). cbv zeta. cbn [snd].
    run_worker.
    repeat match goal with
           | |- context [match ?c with Returned _ => _ | Raised _ => _ end] =>
               destruct c
           end;
      reflexivity.
  - rewrite (serve_worker W d p Hp). cbv zeta. cbn [snd].
    run_worker.
    repeat match goal with
           | |- context [match ?c with Returned _ => _ | Raised _ => _ end] =>
               destruct c
           end;
      reflexivity.
  - apply str_repeat_length.
Qed.

Lemma string_duration_repeated_witness :
  solve_durations (events (snd (serve w_ok (Returned (PyDict req_str_time)))))
    = [PyStr (str_repeat 3600 "2")] /\
  events (snd (serve w_ok (Returned (PyDict req_str_time)))) !! 1%nat
    = Some (EvSolve
              (<["Upper voltage cut-off [V]" := PyFloat 4.2]>
              (<["Lower voltage cut-off [V]" := PyFloat 2.5]>
              (<["Nominal cell capacity [A.h]" := PyFloat 8.6]>
              (<["Current function [A]" := PyInt 5]> ∅))))
              (PyList [PyInt 0; PyStr (str_repeat 3600 "2")])) /\
  String.length (str_repeat 3600 "2") = (3600 * String.length "2")%nat.
Proof.
  apply (string_duration_repeated w_ok req_str_time); reflexivity.
Defined.

(** ** Runs that complete *)

(** X6. When every step succeeds, the POST included, the list posted under
    ['result'] is the list the handler answers with under
    ['simulationResults'], and the worker returns [None]. *)
Theorem success_response_carries_posted_list (W : world)
    (d p : gmap string pyval) (seconds : pyval) (sol : solution)
    (cd : list pyval) :
  custom_parameters (PyDict d) = Returned p ->
  pybamm_Simulation W p = Returned tt ->
  (let? m := py_mul (default (PyInt 1) (d !! "time")) 60 in py_mul m 60)
    = Returned seconds ->
  pybamm_solve W p (PyList [PyInt 0; seconds]) = Returned sol ->
  combined_data sol = Returned cd ->
  requests_post W return_url
    (PyDict (<["id" := default PyNone (d !! "id")]>
            (<["result" := PyList cd]> ∅))) = Returned tt ->
  serve W (Returned (PyDict d)) =
    (Returned (job_started (PyList cd)),
     Store [EvSimulation p;
            EvSolve p (PyList [PyInt 0; seconds]);
            EvPost return_url
              (PyDict (<["id" := default PyNone (d !! "id")]>
                      (<["result" := PyList cd]> ∅)))]
           {[ "result" := PyList cd ]}) /\
  fst (simulate_battery W p (default (PyInt 1) (d !! "time"))
         (default PyNone (d !! "id")) thread_store) = Returned PyNone.
Proof.
  intros Hp Hsim Hsec Hsolve Hcd Hpost. split.
  - rewrite (serve_worker W d p Hp). cbv zeta.
    run_worker. rewrite lookup_insert_eq, insert_singleton_eq. reflexivity.
  - unfold simulate_battery, try_except, bind. run_worker. reflexivity.
Qed.

Lemma success_response_carries_posted_list_witness :
  exists p cd,
  serve w_ok (Returned (PyDict req_J1)) =
    (Returned (job_started (PyList cd)),
     Store [EvSimulation p;
            EvSolve p (PyList [PyInt 0; PyInt 3600]);
            EvPost return_url
              (PyDict (<["id" := default PyNone (req_J1 !! "id")]>
                      (<["result" := PyList cd]> ∅)))]
           {[ "result" := PyList cd ]}) /\
  fst (simulate_battery w_ok p (default (PyInt 1) (req_J1 !! "time"))
         (default PyNone (req_J1 !! "id")) thread_store) = Returned PyNone.
Proof.
  do 2 eexists.
  eapply (success_response_carries_posted_list w_ok req_J1 _ (PyInt 3600)
            two_steps); reflexivity.
Defined.

(** X7. The worker returns [None] exactly when it has stored a list under
    ['result']; otherwise it returns a dict with the single key ['error']
    and leaves [result_holder] as it was.  It never raises. *)
Theorem worker_return_and_holder (W : world) (p : gmap string pyval)
    (h i : pyval) (s : store) :
  let r := simulate_battery W p h i s in
  (fst r = Returned PyNone /\
   exists cd, result_holder (snd r) = <["result" := PyList cd]> (result_holder s)) \/
  (exists msg, fst r = Returned (PyDict {[ "error" := PyStr msg ]}) /\
   result_holder (snd r) = result_holder s).
Proof.
  cbv zeta. unfold simulate_battery, try_except, bind.
  rewrite simulate_battery_try_eq. cbv zeta.
  repeat match goal with
         | |- context [match ?c with Returned _ => _ | Raised _ => _ end] =>
             destruct c
         end;
    try (destruct (is_SolverError _));
    unfold ret; cbn [log events result_holder fst snd]; eauto.
Qed.

(** ** Bodies that are not JSON objects *)

(** X8. When the body cannot be read, or is not a JSON object, the handler
    answers with an error body and nothing else happens: no engine call,
    no POST, no [result_holder]. *)
Theorem body_not_an_object_reaches_nothing (W : world)
    (get_json : outcome pyval) :
  (forall d, get_json <> Returned (PyDict d)) ->
  exists msg, serve W get_json = (Returned (error_body msg), init_store).
Proof.
  intros Hnot.
  destruct get_json as [v|e];
    [destruct v; try (eexists; reflexivity); now destruct (Hnot d)|].
  eexists; reflexivity.
Qed.

Lemma body_not_an_object_reaches_nothing_witness :
  exists msg,
    serve w_ok (Returned (PyList [])) = (Returned (error_body msg), init_store).
Proof.
  apply (body_not_an_object_reaches_nothing w_ok (Returned (PyList []))).
  intros d. discriminate.
Defined.

(** ** The order of the calls *)

(** X9. Whatever the request and whatever the collaborators do, the calls
    of one request are an initial part of: build the simulation, solve
    from 0 with the same parameters, POST to [return_url].  So there is at
    most one call of each kind, and never a POST without a solve before
    it. *)
Theorem calls_in_order (W : world) (get_json : outcome pyval) :
  exists (p : gmap string pyval) (seconds json : pyval),
    events (snd (serve W get_json)) `prefix_of`
      [EvSimulation p;
       EvSolve p (PyList [PyInt 0; seconds]);
       EvPost return_url json].
Proof.
  destruct get_json as [v|e].
  2: { exists ∅, PyNone, PyNone. eexists. reflexivity. }
  destruct v; try (exists ∅, PyNone, PyNone; eexists; reflexivity).
  erewrite serve_worker by reflexivity. cbv zeta. cbn [snd].
  rewrite simulate_battery_try_eq. cbv zeta.
  repeat match goal with
         | |- context [match ?c with Returned _ => _ | Raised _ => _ end] =>
             destruct c
         end;
    cbn [log thread_store events result_holder app snd fst];
    do 3 eexists; eexists; cbn [app]; reflexivity.
  Unshelve. all: exact PyNone.
Qed.

(** ** What the answer depends on *)

(** X10. Only the six fields the handler reads matter: two JSON objects
    that agree on [time], [id], [upperVoltage], [lowerVoltage],
    [nominalCell] and [controlCurrent] are served alike, with the same
    calls and the same answer. *)
Theorem unread_fields_ignored (W : world) (d d' : gmap string pyval) :
  d !! "time" = d' !! "time" ->
  d !! "id" = d' !! "id" ->
  d !! "upperVoltage" = d' !! "upperVoltage" ->
  d !! "lowerVoltage" = d' !! "lowerVoltage" ->
  d !! "nominalCell" = d' !! "nominalCell" ->
  d !! "controlCurrent" = d' !! "controlCurrent" ->
  serve W (Returned (PyDict d)) = serve W (Returned (PyDict d')).
Proof.
  intros Ht Hi Hu Hl Hn Hc.
  erewrite (serve_worker W d) by reflexivity.
  erewrite (serve_worker W d') by reflexivity.
  now rewrite Ht, Hi, Hu, Hl, Hn, Hc.
Qed.

Lemma unread_fields_ignored_witness :
  serve w_ok (Returned (PyDict req_J1))
    = serve w_ok (Returned (PyDict req_J1_note)).
Proof.
  apply (unread_fields_ignored w_ok req_J1 req_J1_note); reflexivity.
Defined.

Lemma simulate_battery_shift (W : world) (p : gmap string pyval) (h i : pyval)
    (ev : list event) (rh : gmap string pyval) :
  simulate_battery W p h i (Store ev rh) =
  let r := simulate_battery W p h i (Store [] rh) in
  (fst r, Store (ev ++ events (snd r)) (result_holder (snd r))).
Proof.
  cbv zeta. unfold simulate_battery, try_except, bind.
  rewrite !simulate_battery_try_eq. cbv zeta.
  repeat match goal with
         | |- context [match ?c with Returned _ => _ | Raised _ => _ end] =>
             destruct c
         end;
    try (destruct (is_SolverError _));
    unfold ret, log; cbn [events result_holder fst snd app];
    rewrite <- ?app_assoc; reflexivity.
Qed.

(** X11. A request is served the same whatever an earlier request left
    behind: the handler allocates a fresh [result_holder], so its answer
    and its own calls are those of a run from the empty store, and the
    earlier log is only extended. *)
Theorem earlier_store_not_read (W : world) (d : gmap string pyval) (s : store) :
  simulate W (Returned (PyDict d)) s =
  let r := serve W (Returned (PyDict d)) in
  (fst r, Store (events s ++ events (snd r)) (result_holder (snd r))).
Proof.
  cbv zeta.
  destruct (serve_dict W d) as (p & Hp & r & Hr & Hserve).
  cbv zeta in Hr, Hserve. rewrite Hserve. cbn [fst snd].
  injection Hp as <-.
  unfold simulate, simulate_try, try_except, bind, lift,
    custom_parameters, py_get, obind, new_result_holder, Thread_start_join,
    result_holder_get.
  cbn [events result_holder].
  rewrite simulate_battery_shift. cbv zeta. fold thread_store.
  cbn [snd result_holder]. rewrite Hr. reflexivity.
Qed.
